(** * ctlptl: the [create registry] command (pkg/cmd/create_registry.go)

    A shallow embedding of [CreateRegistryOptions]: construction of the
    options value, flag binding and the [PreRun] proxy assembly of
    [Command], the workflow [run] and its wrapper [Run].

    The collaborators of the command (telemetry, the defaulting policy of
    package registry, the controller behind the [registryCreator]
    interface, the printer) live outside this file of the repository; they
    are parameters of the model, gathered in [Env]. *)

From Stdlib Require Import String Ascii List ZArith Bool Lia.
From Stdlib Require DecimalString.
Import ListNotations.

Open Scope string_scope.
Open Scope Z_scope.

(** ** Resources (package api, the fields the command reads or writes) *)

Record TypeMeta : Type := mkTypeMeta {
  Kind : string;
  APIVersion : string
}.

Record RegistryProxySpec : Type := mkProxy {
  RemoteURL : string;
  Username : string;
  Password : string;
  TTL : string
}.

Record Registry : Type := mkRegistry {
  TypeMeta_ : TypeMeta;
  Name : string;
  Port : Z;
  ListenAddress : string;
  Image : string;
  Proxy : option RegistryProxySpec   (* *api.RegistryProxySpec, nil = None *)
}.

(** The zero value of [api.Registry]. *)
Definition zeroTypeMeta : TypeMeta := mkTypeMeta "" "".
Definition zeroRegistry : Registry := mkRegistry zeroTypeMeta "" 0 "" "" None.

Definition set_Name (n : string) (r : Registry) : Registry :=
  mkRegistry (TypeMeta_ r) n (Port r) (ListenAddress r) (Image r) (Proxy r).
Definition set_Port (p : Z) (r : Registry) : Registry :=
  mkRegistry (TypeMeta_ r) (Name r) p (ListenAddress r) (Image r) (Proxy r).
Definition set_ListenAddress (a : string) (r : Registry) : Registry :=
  mkRegistry (TypeMeta_ r) (Name r) (Port r) a (Image r) (Proxy r).
Definition set_Image (i : string) (r : Registry) : Registry :=
  mkRegistry (TypeMeta_ r) (Name r) (Port r) (ListenAddress r) i (Proxy r).
Definition set_Proxy (p : option RegistryProxySpec) (r : Registry) : Registry :=
  mkRegistry (TypeMeta_ r) (Name r) (Port r) (ListenAddress r) (Image r) p.

(** ** Strings *)

(** [strings.HasPrefix] and [strings.Contains], used to state what an error
    message looks like. *)
Fixpoint HasPrefix (s p : string) : bool :=
  match p, s with
  | EmptyString, _ => true
  | String c p', String d s' => Ascii.eqb c d && HasPrefix s' p'
  | String _ _, EmptyString => false
  end.

Fixpoint Contains (s sub : string) : bool :=
  HasPrefix s sub ||
  match s with
  | EmptyString => false
  | String _ s' => Contains s' sub
  end.

(** ** Errors

    A Go [error] is an interface value.  The workflow builds two of its own
    with [fmt.Errorf] (no [%w] verb, so the value carries its text only);
    every other error reaches it from a collaborator and is opaque except
    for its [Error()] text. *)

Section Errors.
Variable E : Type.

Inductive error : Type :=
| errorString (text : string)
| foreign (e : E).
End Errors.

Arguments errorString {E} text.
Arguments foreign {E} e.

(** How a collaborator's error value prints. *)
Class ErrorText (E : Type) : Type := error_text : E -> string.

Definition Error {E} `{ErrorText E} (err : error E) : string :=
  match err with
  | errorString text => text
  | foreign e => error_text e
  end.

(** [fmt.Errorf] at the two formats the workflow uses: a constant format,
    and a format ending in [%v] applied to an error. *)
Definition Errorf {E} (msg : string) : error E := errorString msg.
Definition Errorf_v {E} `{ErrorText E} (pre : string) (err : error E) : error E :=
  errorString (pre ++ Error err).

(** ** The command line

    What the flag set holds after parsing: a flag given on the command line
    carries its value, a flag left out is [None] and keeps the default it was
    registered with. *)
Record FlagArgs : Type := mkFlagArgs {
  flag_port : option Z;
  flag_listen_address : option string;
  flag_image : option string;
  flag_proxy_remote_url : option string;
  flag_proxy_username : option string;
  flag_proxy_password : option string;
  flag_proxy_ttl : option string
}.

Definition noFlags : FlagArgs := mkFlagArgs None None None None None None None.

Definition flagValue {A} (given : option A) (default : A) : A :=
  match given with
  | Some v => v
  | None => default
  end.

(** The four local variables of [Command] that the proxy flags are bound to. *)
Record ProxyVars : Type := mkProxyVars {
  proxyRemoteURL : string;
  proxyUsername : string;
  proxyPassword : string;
  proxyTTL : string
}.

(** [cobra.ExactArgs(1)]. *)
Definition ExactArgs (n : nat) (args : list string) : bool :=
  Nat.eqb (List.length args) n.

(** ** Collaborators, world and effects *)

(** [time.Second], in nanoseconds. *)
Definition Second : Z := 1000000000.

Section Workflow.
Context {E : Type} `{ErrorText E}.
(** State of the controller and of the telemetry client. *)
Context {C T : Type}.

(** A call that returns a pointer to an [api.Registry] and an [error]:
    either may be nil independently of the other. *)
Definition RegistryResult : Type := (option Registry * option (error E))%type.

(** The [registryCreator] interface.  [Apply] receives a pointer, so an
    implementation may also write through it: its result carries the
    pointed-to value as the call leaves it. *)
Record registryCreator : Type := mkRegistryCreator {
  Apply : Registry -> C -> RegistryResult * Registry * C;
  Get : string -> C -> RegistryResult * C
}.

(** The telemetry handle returned by [newAnalytics]. *)
Record Analytics : Type := mkAnalytics {
  Incr : string -> list (string * string) -> T -> T;
  Flush : Z -> T -> T
}.

(** A printer: the text [PrintObj] writes to the stream it is given, and
    the error it returns. *)
Record ResourcePrinter : Type := mkResourcePrinter {
  PrintObj : option Registry -> string * option (error E)
}.

Record Env : Type := mkEnv {
  registry_TypeMeta : TypeMeta;                         (* registry.TypeMeta() *)
  DefaultRegistryImageRef : string;
  newAnalytics : Analytics + error E;
  FillDefaults : Registry -> Registry;                  (* writes through its pointer *)
  IsNotFound : error E -> bool;                         (* k8s errors.IsNotFound *)
  DefaultController : registryCreator + error E;
  ToPrinter : ResourcePrinter + error E                 (* o.PrintFlags.ToPrinter() *)
}.

(** What an execution does, in order: every call to a collaborator with
    its arguments (and its results where the workflow receives any), and
    the one assignment to a field of the resource. *)
Inductive Event : Type :=
| EvNewAnalytics (failed : option (error E))
| EvIncr (name : string) (tags : list (string * string))
| EvFlush (timeout : Z)
| EvAssignName (name : string)
| EvFillDefaults (arg : Registry)
| EvGet (name : string) (ret : RegistryResult)
| EvApply (arg : Registry) (ret : RegistryResult)
| EvToPrinter (failed : option (error E))
| EvPrintObj (obj : option Registry) (ret : option (error E)).

Record World : Type := mkWorld {
  o_Registry : Registry;      (* the value o.Registry points to *)
  ctl : C;
  tel : T;
  Out : string;               (* written to o.Out so far *)
  ErrOut : string;            (* written to o.ErrOut so far *)
  calls : list Event          (* oldest first *)
}.

(** *** A state monad over [World] *)

Definition M (A : Type) : Type := World -> A * World.

Definition ret {A} (a : A) : M A := fun w => (a, w).
Definition bind {A B} (m : M A) (k : A -> M B) : M B :=
  fun w => let (a, w') := m w in k a w'.

Definition emit (ev : Event) : M unit := fun w =>
  (tt, mkWorld (o_Registry w) (ctl w) (tel w) (Out w) (ErrOut w) (calls w ++ [ev])).
Definition get_Registry : M Registry := fun w => (o_Registry w, w).
Definition put_Registry (r : Registry) : M unit := fun w =>
  (tt, mkWorld r (ctl w) (tel w) (Out w) (ErrOut w) (calls w)).
Definition get_ctl : M C := fun w => (ctl w, w).
Definition put_ctl (c : C) : M unit := fun w =>
  (tt, mkWorld (o_Registry w) c (tel w) (Out w) (ErrOut w) (calls w)).
Definition modify_tel (f : T -> T) : M unit := fun w =>
  (tt, mkWorld (o_Registry w) (ctl w) (f (tel w)) (Out w) (ErrOut w) (calls w)).
Definition write_Out (s : string) : M unit := fun w =>
  (tt, mkWorld (o_Registry w) (ctl w) (tel w) (Out w ++ s) (ErrOut w) (calls w)).
Definition write_ErrOut (s : string) : M unit := fun w =>
  (tt, mkWorld (o_Registry w) (ctl w) (tel w) (Out w) (ErrOut w ++ s) (calls w)).
End Workflow.

Arguments registryCreator E C : clear implicits.
Arguments Analytics T : clear implicits.
Arguments ResourcePrinter E : clear implicits.
Arguments Env E C T : clear implicits.
Arguments Event E : clear implicits.
Arguments World E C T : clear implicits.
Arguments M E C T A : clear implicits.
Arguments RegistryResult E : clear implicits.

Declare Scope go_scope.
Delimit Scope go_scope with go.
Notation "x <- m ;; k" := (bind m (fun x => k))
  (at level 100, m at next level, right associativity) : go_scope.
Notation "m ;;; k" := (bind m (fun _ => k))
  (at level 100, right associativity) : go_scope.
Notation "'defer' d 'around' body" :=
  (bind body (fun r => bind d (fun _ => ret r)))
  (at level 100, d at next level, right associativity) : go_scope.

(** ** The command *)

Section Command.
Context {E : Type} `{ErrorText E} {C T : Type}.
Variable env : Env E C T.

Local Open Scope go_scope.
Local Abbreviation M := (M E C T).

(** [NewCreateRegistryOptions]: the resource starts as the zero value with
    its [TypeMeta] set. *)
Definition NewCreateRegistryOptions_Registry : Registry :=
  mkRegistry (registry_TypeMeta env) "" 0 "" "" None.

Definition NewCreateRegistryOptions (c : C) (t : T) : World E C T :=
  mkWorld NewCreateRegistryOptions_Registry c t "" "" [].

(** [Command], flag registration followed by parsing: [port] and
    [listen-address] default to what the resource already holds, [image]
    to [registry.DefaultRegistryImageRef], the proxy variables to the
    empty string. *)
Definition Command_flags (fa : FlagArgs) (r : Registry) : Registry * ProxyVars :=
  let r := set_Port (flagValue (flag_port fa) (Port r)) r in
  let r := set_ListenAddress (flagValue (flag_listen_address fa) (ListenAddress r)) r in
  let r := set_Image (flagValue (flag_image fa) (DefaultRegistryImageRef env)) r in
  (r, mkProxyVars (flagValue (flag_proxy_remote_url fa) "")
                  (flagValue (flag_proxy_username fa) "")
                  (flagValue (flag_proxy_password fa) "")
                  (flagValue (flag_proxy_ttl fa) "")).

(** [cmd.PreRun]. *)
Definition PreRun (v : ProxyVars) (r : Registry) : Registry :=
  if negb (proxyRemoteURL v =? "")%string then
    set_Proxy (Some (mkProxy (proxyRemoteURL v) (proxyUsername v)
                             (proxyPassword v) (proxyTTL v))) r
  else r.

(** The resource as [Run] finds it: built by [NewCreateRegistryOptions],
    filled from the flags, then passed through [PreRun]. *)
Definition buildRegistry (fa : FlagArgs) : Registry :=
  let (r, v) := Command_flags fa NewCreateRegistryOptions_Registry in
  PreRun v r.

(** *** Calls to collaborators, each recorded in [calls] *)

Definition call_newAnalytics : M (Analytics T + error E) :=
  emit (EvNewAnalytics (match newAnalytics env with inl _ => None | inr e => Some e end)) ;;;
  ret (newAnalytics env).

Definition call_Incr (a : Analytics T) (name : string) (tags : list (string * string))
  : M unit :=
  emit (EvIncr name tags) ;;; modify_tel (Incr a name tags).

Definition call_Flush (a : Analytics T) (timeout : Z) : M unit :=
  emit (EvFlush timeout) ;;; modify_tel (Flush a timeout).

Definition assign_Name (name : string) : M unit :=
  emit (EvAssignName name) ;;;
  r <- get_Registry ;; put_Registry (set_Name name r).

Definition call_FillDefaults : M unit :=
  r <- get_Registry ;;
  emit (EvFillDefaults r) ;;;
  put_Registry (FillDefaults env r).

Definition call_Get (controller : registryCreator E C) (name : string)
  : M (RegistryResult E) :=
  c <- get_ctl ;;
  let (res, c') := Get controller name c in
  emit (EvGet name res) ;;; put_ctl c' ;;; ret res.

Definition call_Apply (controller : registryCreator E C) : M (RegistryResult E) :=
  r <- get_Registry ;;
  c <- get_ctl ;;
  let '(res, r', c') := Apply controller r c in
  emit (EvApply r res) ;;; put_Registry r' ;;; put_ctl c' ;;; ret res.

Definition call_ToPrinter : M (ResourcePrinter E + error E) :=
  emit (EvToPrinter (match ToPrinter env with inl _ => None | inr e => Some e end)) ;;;
  ret (ToPrinter env).

Definition call_PrintObj (printer : ResourcePrinter E) (obj : option Registry)
  : M (option (error E)) :=
  let (text, err) := PrintObj printer obj in
  emit (EvPrintObj obj err) ;;; write_Out text ;;; ret err.

(** *** [run] *)

Definition run (controller : registryCreator E C) (name : string)
  : M (option (error E)) :=
  a <- call_newAnalytics ;;
  match a with
  | inr err => ret (Some err)
  | inl a =>
    call_Incr a "cmd.create.registry" [] ;;;
    defer call_Flush a Second around
    (assign_Name name ;;;
     call_FillDefaults ;;;
     r <- get_Registry ;;
     got <- call_Get controller (Name r) ;;
     match snd got with
     | None => ret (Some (Errorf "Cannot create registry: already exists"))
     | Some err =>
       if negb (IsNotFound env err) then
         ret (Some (Errorf_v "Cannot check registry: " err))
       else
         applied <- call_Apply controller ;;
         match snd applied with
         | Some err => ret (Some err)
         | None =>
           printer <- call_ToPrinter ;;
           match printer with
           | inr err => ret (Some err)
           | inl printer => call_PrintObj printer (fst applied)
           end
         end
     end)
  end.

(** *** [Run] *)

Inductive Outcome : Type :=
| Returned                (* [Run] returns: the process ends with status 0 *)
| Exited (code : Z)       (* [os.Exit(code)] *)
| Panicked.               (* index out of range on [args[0]] *)

Definition Run (args : list string) : M Outcome :=
  match DefaultController env with
  | inr err => write_ErrOut (Error err ++ String "010" "") ;;; ret (Exited 1)
  | inl controller =>
    match args with
    | [] => ret Panicked
    | name :: _ =>
      err <- run controller name ;;
      match err with
      | Some err => write_ErrOut (Error err ++ String "010" "") ;;; ret (Exited 1)
      | None => ret Returned
      end
    end
  end.

(** One invocation of the command: the options are built, the flags
    parsed, the argument count checked, then [PreRun] and [Run].  [None]
    when [cobra.ExactArgs(1)] rejects the arguments. *)
Definition Execute (fa : FlagArgs) (args : list string) (c : C) (t : T)
  : option (Outcome * World E C T) :=
  if ExactArgs 1 args then
    let w := NewCreateRegistryOptions c t in
    Some (Run args (mkWorld (buildRegistry fa) (ctl w) (tel w) (Out w) (ErrOut w) (calls w)))
  else None.
End Command.

(** ** Observing an execution *)

Section Observe.
Context {E : Type} `{ErrorText E} {C T : Type}.

(** The calls one execution of [run] adds to the record. *)
Definition run_trace (env : Env E C T) (controller : registryCreator E C)
           (name : string) (w : World E C T) : list (Event E) :=
  skipn (List.length (calls w)) (calls (snd (run env controller name w))).

Definition is_Apply (ev : Event E) : bool :=
  match ev with EvApply _ _ => true | _ => false end.
Definition is_AssignName (ev : Event E) : bool :=
  match ev with EvAssignName _ => true | _ => false end.
Definition is_FillDefaults (ev : Event E) : bool :=
  match ev with EvFillDefaults _ => true | _ => false end.
Definition is_Get (ev : Event E) : bool :=
  match ev with EvGet _ _ => true | _ => false end.
Definition is_telemetry (ev : Event E) : bool :=
  match ev with EvNewAnalytics _ | EvIncr _ _ | EvFlush _ => true | _ => false end.

(** A call to [Apply] that returned a nil error: the controller created
    the resource. *)
Definition created (ev : Event E) : bool :=
  match ev with EvApply _ (_, None) => true | _ => false end.

(** Replacing one collaborator of an environment or one part of a world. *)
Definition with_newAnalytics (a : Analytics T + error E) (env : Env E C T) : Env E C T :=
  mkEnv (registry_TypeMeta env) (DefaultRegistryImageRef env) a (FillDefaults env)
        (IsNotFound env) (DefaultController env) (ToPrinter env).
Definition with_ToPrinter (p : ResourcePrinter E + error E) (env : Env E C T) : Env E C T :=
  mkEnv (registry_TypeMeta env) (DefaultRegistryImageRef env) (newAnalytics env)
        (FillDefaults env) (IsNotFound env) (DefaultController env) p.
Definition with_tel (t : T) (w : World E C T) : World E C T :=
  mkWorld (o_Registry w) (ctl w) t (Out w) (ErrOut w) (calls w).

Definition has_Proxy (r : Registry) : bool :=
  match Proxy r with Some _ => true | None => false end.

(** What [Apply] leaves behind the pointer it was given. *)
Definition Apply_writes (controller : registryCreator E C) (c : C) (r : Registry)
  : Registry :=
  snd (fst (Apply controller r c)).

(** [f], which receives a pointer to [r], leaves [field] of [r] as it
    found it. *)
Definition keeps {A} (field : Registry -> A) (f : Registry -> Registry)
           (r : Registry) : Prop :=
  field (f r) = field r.

(** The record of a call to [Get] without the resource it returned. *)
Definition forget_got (ev : Event E) : Event E :=
  match ev with
  | EvGet name (_, err) => EvGet name (None, err)
  | _ => ev
  end.

Definition is_Incr (ev : Event E) : bool :=
  match ev with EvIncr _ _ => true | _ => false end.
Definition is_Flush (ev : Event E) : bool :=
  match ev with EvFlush _ => true | _ => false end.
Definition is_PrintObj (ev : Event E) : bool :=
  match ev with EvPrintObj _ _ => true | _ => false end.

Definition with_DefaultController (d : registryCreator E C + error E) (env : Env E C T)
  : Env E C T :=
  mkEnv (registry_TypeMeta env) (DefaultRegistryImageRef env) (newAnalytics env)
        (FillDefaults env) (IsNotFound env) d (ToPrinter env).

Definition with_FillDefaults (f : Registry -> Registry) (env : Env E C T) : Env E C T :=
  mkEnv (registry_TypeMeta env) (DefaultRegistryImageRef env) (newAnalytics env)
        f (IsNotFound env) (DefaultController env) (ToPrinter env).

(** The line [Run] writes to the error stream for [err]. *)
Definition errorLine (err : error E) : string := Error err ++ String "010" "".
End Observe.

(** ** A test double

    In-memory collaborators: the controller keeps the registries it has
    created in a list, telemetry keeps the names of the counters it was
    sent, errors are their text. *)

Module Fake.
#[global] Instance text_of_string : ErrorText string := fun s => s.

Definition notFound : error string := foreign "registry not found".

Definition lookup (name : string) (c : list Registry) : option Registry :=
  find (fun r => (Name r =? name)%string) c.

(** Creates the registry; picks port 5000 when the request leaves the
    port to the controller. *)
Definition controller : registryCreator string (list Registry) :=
  mkRegistryCreator
    (fun r c =>
       let realized := if Port r =? 0 then set_Port 5000 r else r in
       ((Some realized, None), r, (c ++ [realized])%list))
    (fun name c =>
       match lookup name c with
       | Some r => ((Some r, None), c)
       | None => ((None, Some notFound), c)
       end).

(** A controller that cannot be reached. *)
Definition unreachable : registryCreator string (list Registry) :=
  mkRegistryCreator
    (fun r c => ((None, Some (foreign "connection refused")), r, c))
    (fun name c => ((None, Some (foreign "connection refused")), c)).

(** A controller whose [Get] finds nothing and whose [Apply] fails. *)
Definition failing : registryCreator string (list Registry) :=
  mkRegistryCreator
    (fun r c => ((None, Some (foreign "port in use")), r, c))
    (fun name c => ((None, Some notFound), c)).

(** A controller whose [Get] returns neither a resource nor an error. *)
Definition silent : registryCreator string (list Registry) :=
  mkRegistryCreator (Apply controller) (fun name c => ((None, None), c)).

Definition analytics : Analytics (list string) :=
  mkAnalytics (fun name _ t => (t ++ [name])%list) (fun _ t => (t ++ ["flush"])%list).

(** A telemetry client whose calls have no effect at all. *)
Definition deaf : Analytics (list string) :=
  mkAnalytics (fun _ _ t => t) (fun _ t => t).

Definition printer : ResourcePrinter string :=
  mkResourcePrinter
    (fun obj =>
       match obj with
       | Some r => ("registry.ctlptl.dev/" ++ Name r ++ " created" ++ String "010" "", None)
       | None => ("", Some (foreign "nothing to print"))
       end).

(** Fills the listen address when it was left empty. *)
Definition fillDefaults (r : Registry) : Registry :=
  if (ListenAddress r =? "")%string then set_ListenAddress "127.0.0.1" r else r.

Definition isNotFound (err : error string) : bool :=
  match err with
  | foreign e => (e =? "registry not found")%string
  | errorString _ => false
  end.

Definition env : Env string (list Registry) (list string) :=
  mkEnv (mkTypeMeta "Registry" "ctlptl.dev/v1alpha1") "docker.io/library/registry:2"
        (inl analytics) fillDefaults isNotFound (inl controller) (inl printer).

(** The options as [Run] finds them after [ctlptl create registry NAME
    FLAGS], before any call. *)
Definition world (fa : FlagArgs) (c : list Registry) : World string (list Registry) (list string) :=
  mkWorld (buildRegistry env fa) c [] "" "" [].

Definition proxyFlags : FlagArgs :=
  mkFlagArgs None None None (Some "https://registry-1.docker.io") None None None.

(** A registry the controller already runs. *)
Definition existing : Registry :=
  mkRegistry (mkTypeMeta "Registry" "ctlptl.dev/v1alpha1") "ctlptl-registry" 5000
             "127.0.0.1" "docker.io/library/registry:2" None.

(** [controller], except that [Get] never hands back the resource it
    found. *)
Definition forgetful : registryCreator string (list Registry) :=
  mkRegistryCreator
    (Apply controller)
    (fun name c => let '(_, err, c') := Get controller name c in ((None, err), c')).

(** Environments in which one collaborator is out of order. *)
Definition noTelemetry : Env string (list Registry) (list string) :=
  with_newAnalytics (inr (foreign "telemetry unavailable")) env.
Definition noPrinter : Env string (list Registry) (list string) :=
  with_ToPrinter (inr (foreign "unknown output format")) env.

(** An environment in which no controller can be built. *)
Definition noController : Env string (list Registry) (list string) :=
  with_DefaultController (inr (foreign "docker not running")) env.

Definition fullFlags : FlagArgs :=
  mkFlagArgs (Some 5001) (Some "0.0.0.0") (Some "registry:3")
             (Some "https://registry-1.docker.io") (Some "user") (Some "secret")
             (Some "24h").

(** Credentials and TTL for the proxy, but no remote URL. *)
Definition credentialsOnly : FlagArgs :=
  mkFlagArgs None None None None (Some "user") (Some "secret") (Some "24h").

(** Defaulting policies that write more than the listen address. *)

(** Names a resource that has no name. *)
Definition namesUnnamed (r : Registry) : Registry :=
  let r := fillDefaults r in
  if (Name r =? "")%string then set_Name "ctlptl-registry" r else r.

(** Leaves out a proxy that has no credentials. *)
Definition dropsAnonymousProxy (r : Registry) : Registry :=
  match Proxy (fillDefaults r) with
  | Some p => if (Username p =? "")%string then set_Proxy None (fillDefaults r)
              else fillDefaults r
  | None => fillDefaults r
  end.

(** Moves the resource to another API version. *)
Definition upgradesVersion (r : Registry) : Registry :=
  mkRegistry (mkTypeMeta (Kind (TypeMeta_ r)) "ctlptl.dev/v1") (Name r) (Port r)
             (ListenAddress r) (Image r) (Proxy r).

Definition naming : Env string (list Registry) (list string) :=
  with_FillDefaults namesUnnamed env.
Definition proxyDropping : Env string (list Registry) (list string) :=
  with_FillDefaults dropsAnonymousProxy env.
Definition upgrading : Env string (list Registry) (list string) :=
  with_FillDefaults upgradesVersion env.

(** A controller that takes the request over: [Apply] creates the registry
    and leaves the zero value behind the pointer it was given. *)
Definition consuming : registryCreator string (list Registry) :=
  mkRegistryCreator
    (fun r c => ((Some r, None), zeroRegistry, (c ++ [r])%list))
    (Get controller).

(** A printer that also shows the port. *)
Definition portPrinter : ResourcePrinter string :=
  mkResourcePrinter
    (fun obj =>
       match obj with
       | Some r => (Name r ++ ":" ++
                    DecimalString.NilZero.string_of_int (Z.to_int (Port r)) ++
                    String "010" "", None)
       | None => ("", Some (foreign "nothing to print"))
       end).

Definition showingPort : Env string (list Registry) (list string) :=
  with_ToPrinter (inl portPrinter) env.
End Fake.

(** * Properties *)

Lemma skipn_app_exact {A} (l l' : list A) : skipn (List.length l) (l ++ l')%list = l'.
Proof. induction l as [|x l IH]; simpl; auto. Qed.

(** Runs the workflow symbolically: one goal per path through [run], with
    the calls of that path spelled out. *)
Ltac run_step :=
  cbv beta iota zeta delta
    [run_trace run call_newAnalytics call_Incr call_Flush assign_Name
     call_FillDefaults call_Get call_Apply call_ToPrinter call_PrintObj
     bind ret emit get_Registry put_Registry get_ctl put_ctl modify_tel
     write_Out Errorf Errorf_v with_tel with_newAnalytics with_ToPrinter
     o_Registry ctl tel Out ErrOut calls fst snd negb];
  cbn [newAnalytics FillDefaults IsNotFound ToPrinter].

Ltac tidy_trace :=
  repeat rewrite <- app_assoc;
  cbn [app];
  rewrite ?skipn_app_exact.

Ltac run_paths env controller :=
  run_step;
  destruct (newAnalytics env) as [?a|?e] eqn:?NA;
  [ run_step;
    destruct (Get controller _ _) as [[?got [?gerr|]] ?c] eqn:?GET;
    [ run_step;
      destruct (IsNotFound env _) eqn:?NF;
      [ run_step;
        destruct (Apply controller _ _) as [[[?applied [?aerr|]] ?r'] ?c] eqn:?AP;
        [ | run_step;
            destruct (ToPrinter env) as [?p|?perr] eqn:?TP;
            [ run_step; destruct (PrintObj _ _) as [?text [?perr|]] eqn:?PO | ] ]
      | ]
    | ]
  | ];
  run_step; tidy_trace.

(** Splits a hypothesis [In ev l], for [l] spelled out, into the entries of
    [l] that [ev] can be. *)
Ltac in_cases Hin :=
  cbn [In] in Hin;
  repeat match type of Hin with
         | _ \/ _ => destruct Hin as [Hin|Hin]
         end;
  try contradiction; try discriminate Hin.

(** ** The resource builder *)

Section Builder.
Context {E : Type} `{ErrorText E} {C T : Type}.
Variable env : Env E C T.

Lemma buildRegistry_Proxy (fa : FlagArgs) :
  Proxy (buildRegistry env fa) =
  if (flagValue (flag_proxy_remote_url fa) "" =? "")%string then None
  else Some (mkProxy (flagValue (flag_proxy_remote_url fa) "")
                     (flagValue (flag_proxy_username fa) "")
                     (flagValue (flag_proxy_password fa) "")
                     (flagValue (flag_proxy_ttl fa) "")).
Proof.
  unfold buildRegistry, Command_flags, PreRun; cbn [proxyRemoteURL proxyUsername
    proxyPassword proxyTTL].
  destruct (flagValue (flag_proxy_remote_url fa) "" =? "")%string; reflexivity.
Qed.

Lemma buildRegistry_has_Proxy (fa : FlagArgs) :
  Proxy (buildRegistry env fa) <> None <-> flagValue (flag_proxy_remote_url fa) "" <> "".
Proof.
  rewrite buildRegistry_Proxy.
  destruct (String.eqb_spec (flagValue (flag_proxy_remote_url fa) "") "") as [Heq|Hne].
  - rewrite Heq; split; intros Hc; exfalso; apply Hc; reflexivity.
  - split; [intros _; exact Hne | intros _; discriminate].
Qed.

Lemma buildRegistry_TypeMeta (fa : FlagArgs) :
  TypeMeta_ (buildRegistry env fa) = registry_TypeMeta env.
Proof.
  unfold buildRegistry, Command_flags, PreRun; cbn [proxyRemoteURL].
  destruct (negb _); reflexivity.
Qed.

(** C6.  [Proxy] is built exactly when [proxy-remote-url] is not empty, in
    one piece, each of its four fields being the value of its flag as
    given (the empty string for a flag left out); with only
    [--proxy-remote-url=https://registry-1.docker.io] the proxy has that
    remote URL and empty username, password and TTL. *)
Theorem Proxy_built_iff_remote_url (fa : FlagArgs) :
  let url := flagValue (flag_proxy_remote_url fa) "" in
  (Proxy (buildRegistry env fa) <> None <-> url <> "") /\
  Proxy (buildRegistry env fa) =
    (if (url =? "")%string then None
     else Some (mkProxy url
                        (flagValue (flag_proxy_username fa) "")
                        (flagValue (flag_proxy_password fa) "")
                        (flagValue (flag_proxy_ttl fa) ""))) /\
  Proxy (buildRegistry env
           (mkFlagArgs None None None (Some "https://registry-1.docker.io")
                       None None None)) =
    Some (mkProxy "https://registry-1.docker.io" "" "" "").
Proof.
  cbv zeta. split; [apply buildRegistry_has_Proxy|].
  split; [apply buildRegistry_Proxy|].
  rewrite buildRegistry_Proxy. reflexivity.
Qed.
End Builder.

(** ** The command surface *)

Section Surface.
Context {E : Type} `{ErrorText E} {C T : Type}.
Variable env : Env E C T.

(** With exactly one positional argument and a controller at hand, an
    invocation is [run] on the resource built from the flags; its error, if
    any, goes to the error stream on a line of its own and the process exits
    with status 1. *)
Lemma Execute_one_argument (fa : FlagArgs) (name : string) (c : C) (t : T)
      (controller : registryCreator E C) :
  DefaultController env = inl controller ->
  let x := run env controller name (mkWorld (buildRegistry env fa) c t "" "" []) in
  Execute env fa [name] c t =
  Some (match fst x with
        | None => (Returned, snd x)
        | Some err =>
            (Exited 1,
             mkWorld (o_Registry (snd x)) (ctl (snd x)) (tel (snd x)) (Out (snd x))
                     (ErrOut (snd x) ++ (Error err ++ String "010" "")) (calls (snd x)))
        end).
Proof.
  intros Hctl x. unfold Execute, Run, ExactArgs. cbn [List.length Nat.eqb].
  rewrite Hctl. unfold bind at 1.
  cbn [NewCreateRegistryOptions ctl tel Out ErrOut calls].
  fold x. destruct x as [[err|] w']; reflexivity.
Qed.

(** Any other number of positional arguments is rejected before [PreRun]
    and [Run]. *)
Lemma Execute_rejects (fa : FlagArgs) (args : list string) (c : C) (t : T) :
  List.length args <> 1%nat -> Execute env fa args c t = None.
Proof.
  intros Hlen. unfold Execute, ExactArgs.
  destruct (Nat.eqb_spec (List.length args) 1) as [Heq|_]; [contradiction|reflexivity].
Qed.
End Surface.

(** ** The workflow *)

(** Finds an entry in a list that is spelled out. *)
Ltac in_list := cbn [In]; repeat first [left; reflexivity | right].

Section Guard.
Context {E : Type} `{ErrorText E} {C T : Type}.
Variables (env : Env E C T) (controller : registryCreator E C).
Variables (name : string) (w : World E C T).

(** C1.  The existence guard sorts what [Get] returned three ways.  A nil
    error: [run] returns an error whose text contains "already exists" and
    [Apply] is not called.  An error the not-found predicate accepts:
    [run] goes on to call [Apply].  Any other error [e]: [run] returns an
    error whose text is "Cannot check registry: " followed by the text of
    [e], and [Apply] is not called. *)
Theorem existence_guard_classifies (n : string) (got : RegistryResult E) :
  In (EvGet n got) (run_trace env controller name w) ->
  let res := fst (run env controller name w) in
  let tr := run_trace env controller name w in
  match snd got with
  | None =>
      (exists err, res = Some err /\
                   Error err = "Cannot create registry: already exists" /\
                   Contains (Error err) "already exists" = true) /\
      filter is_Apply tr = []
  | Some e =>
      if IsNotFound env e then
        exists arg ret, In (EvApply arg ret) tr
      else
        (exists err, res = Some err /\
                     Error err = "Cannot check registry: " ++ Error e /\
                     HasPrefix (Error err) "Cannot check" = true) /\
        filter is_Apply tr = []
  end.
Proof.
  destruct w as [r0 c0 t0 out0 eout0 log0].
  run_paths env controller; intros Hin; in_cases Hin;
    injection Hin as <- <-; cbn [snd]; rewrite ?NF.
  all: try (eexists _, _; cbn [In]; intuition eauto; fail).
  all: split; [eexists; split; [reflexivity|] | reflexivity]; auto.
Qed.

(** C5.  An error [e] that [Apply] returns is what [run] returns, the
    same value with nothing put around it, and the call that failed is the
    only call to [Apply] of the execution. *)
Theorem Apply_error_verbatim (arg : Registry) (obj : option Registry) (e : error E) :
  In (EvApply arg (obj, Some e)) (run_trace env controller name w) ->
  fst (run env controller name w) = Some e /\
  filter is_Apply (run_trace env controller name w) = [EvApply arg (obj, Some e)].
Proof.
  destruct w as [r0 c0 t0 out0 eout0 log0].
  run_paths env controller; intros Hin; in_cases Hin.
  injection Hin as <- <- <-. split; reflexivity.
Qed.

(** C8.  What is handed to the printer is the value the controller's
    [Apply] returned, with a nil error, for the defaulted resource of the
    options; it is not that resource.  The text the printer writes for it
    is what is added to the output stream, and the error [PrintObj] returns
    (nil on success) is what [run] returns.  When [run] succeeds the value
    was printed.  When the printer cannot be built, [run] returns that
    error and prints nothing. *)
Theorem printed_object_is_what_Apply_returned :
  let res := fst (run env controller name w) in
  let w' := snd (run env controller name w) in
  let tr := run_trace env controller name w in
  let local := FillDefaults env (set_Name name (o_Registry w)) in
  (forall obj ret, In (EvPrintObj obj ret) tr ->
     exists got c1 r' c2 printer,
       Get controller (Name local) (ctl w) = (got, c1) /\
       Apply controller local c1 = ((obj, None), r', c2) /\
       ToPrinter env = inl printer /\
       snd (PrintObj printer obj) = ret /\
       Out w' = Out w ++ fst (PrintObj printer obj) /\
       res = ret) /\
  (res = None -> exists obj, In (EvPrintObj obj None) tr) /\
  (forall e, In (EvToPrinter (Some e)) tr ->
     ToPrinter env = inr e /\ res = Some e /\ Out w' = Out w).
Proof.
  destruct w as [r0 c0 t0 out0 eout0 log0]. cbn [o_Registry ctl Out].
  run_paths env controller.
  all: split; [|split].
  all: try (intros ? ? Hin; in_cases Hin; fail).
  all: try (intros ? Hin; in_cases Hin; fail).
  all: try (intros Hres; discriminate Hres).
  all: try (intros ? ? Hin; in_cases Hin; injection Hin as <- <-;
            exists (got, Some gerr), c, r', c1, p;
            (split; [reflexivity|]); (split; [exact AP|]); (split; [reflexivity|]);
            rewrite PO; repeat split; reflexivity).
  all: try (intros ? Hin; in_cases Hin; injection Hin as <-; repeat split; reflexivity).
  intros _. exists applied. in_list.
Qed.

(** C4, as amended.  [run] succeeds only after [Apply] created the
    resource and the printer reported it without error.  When [run]
    returns an error, either no call to [Apply] created anything, or
    [Apply] did create the resource and the error is the printer's (from
    building it or from [PrintObj]). *)
Theorem terminal_states :
  let res := fst (run env controller name w) in
  let tr := run_trace env controller name w in
  (res = None /\
   exists arg obj, In (EvApply arg (obj, None)) tr /\ In (EvPrintObj obj None) tr) \/
  (exists e, res = Some e /\ existsb created tr = false) \/
  (exists e, res = Some e /\ existsb created tr = true /\
             (In (EvToPrinter (Some e)) tr \/ exists obj, In (EvPrintObj obj (Some e)) tr)).
Proof.
  destruct w as [r0 c0 t0 out0 eout0 log0].
  run_paths env controller.
  all: try (right; left; eexists; split; reflexivity).
  - right; right. eexists. repeat split. right. eexists. in_list.
  - left. split; [reflexivity|]. eexists _, _. split; in_list.
  - right; right. eexists. repeat split. left. in_list.
Qed.
End Guard.

Section Resource.
Context {E : Type} `{ErrorText E} {C T : Type}.
Variables (env : Env E C T) (controller : registryCreator E C).
Variables (name : string).

(** C2, as amended.  The resource is the one built from the flags [fa];
    [Get] returns an error that the not-found predicate accepts.  Then the
    controller's [Apply] is called exactly once, on the controller as [Get]
    left it, with what [FillDefaults] made of the built resource named
    after the positional argument.  The resource handed to [FillDefaults]
    has that name, and a proxy exactly when [proxy-remote-url] was given
    and not empty; the resource handed to [Apply] has them too when the
    defaulting step keeps them. *)
Theorem Apply_called_once_with_defaulted_resource
        (fa : FlagArgs) (c : C) (t : T) (out eout : string) (log : list (Event E))
        (n : string) (got : option Registry) (e : error E) :
  let built := buildRegistry env fa in
  let w := mkWorld built c t out eout log in
  let given := set_Name name built in
  let defaulted := FillDefaults env given in
  In (EvGet n (got, Some e)) (run_trace env controller name w) ->
  IsNotFound env e = true ->
  (Name given = name /\
   match flag_proxy_remote_url fa with
   | Some url => Proxy given <> None <-> url <> ""
   | None => Proxy given = None
   end) /\
  (exists ret c1 r' c2,
     filter is_Apply (run_trace env controller name w) = [EvApply defaulted ret] /\
     Get controller (Name defaulted) c = ((got, Some e), c1) /\
     Apply controller defaulted c1 = (ret, r', c2) /\
     ctl (snd (run env controller name w)) = c2) /\
  (keeps Name (FillDefaults env) given -> Name defaulted = name) /\
  (keeps has_Proxy (FillDefaults env) given ->
   (Proxy defaulted <> None <-> flagValue (flag_proxy_remote_url fa) "" <> "")).
Proof.
  intros built w given defaulted. subst w given defaulted. unfold keeps.
  pose proof (buildRegistry_has_Proxy env fa) as Hbuilt. fold built in Hbuilt.
  assert (Hp : forall r r' : Registry,
             has_Proxy r' = has_Proxy r -> Proxy r' <> None <-> Proxy r <> None).
  { intros r r'. unfold has_Proxy.
    destruct (Proxy r), (Proxy r'); intros Heq; try discriminate Heq;
      split; intros Hc; try discriminate; exact Hc. }
  intros Hin Hnf. split; [|split; [|split]].
  - split; [reflexivity|]. change (Proxy (set_Name name built)) with (Proxy built).
    unfold flagValue in Hbuilt.
    destruct (flag_proxy_remote_url fa) as [url|]; [exact Hbuilt|].
    destruct (Proxy built) as [p|]; [|reflexivity].
    exfalso; apply (proj1 Hbuilt); [discriminate|reflexivity].
  - revert Hin Hnf.
    run_paths env controller; intros Hin; in_cases Hin;
      injection Hin as <- <- <-; intros Hnf;
      try (rewrite Hnf in NF; discriminate NF).
    all: eexists _, _, _, _; (split; [reflexivity|]); (split; [reflexivity|]);
      (split; [exact AP|]); reflexivity.
  - intros HName. exact HName.
  - intros HProxy. rewrite (Hp _ _ HProxy). exact Hbuilt.
Qed.

(** C9, as amended.  The resource gets its [TypeMeta] from
    [registry.TypeMeta()] when the options are built, and the code of the
    command does not write it again: binding the flags, assembling the
    proxy and assigning the name leave it, so defaulting receives the
    resource with that [TypeMeta]; the existence check receives the name
    only.  [FillDefaults] and [Apply] receive a pointer: when [run] is over
    the resource is the built one (no telemetry handle), or what
    [FillDefaults] returned (the guard stopped the workflow), or what the
    controller's [Apply] left behind the pointer.  Its [TypeMeta] is then
    the one set at construction when both keep it. *)
Theorem TypeMeta_written_at_construction_only
        (fa : FlagArgs) (c : C) (t : T) (out eout : string) (log : list (Event E)) :
  let built := buildRegistry env fa in
  let w := mkWorld built c t out eout log in
  let given := set_Name name built in
  let defaulted := FillDefaults env given in
  let tr := run_trace env controller name w in
  let final := o_Registry (snd (run env controller name w)) in
  (TypeMeta_ (NewCreateRegistryOptions_Registry env) = registry_TypeMeta env /\
   TypeMeta_ built = registry_TypeMeta env /\
   TypeMeta_ given = registry_TypeMeta env) /\
  (forall arg, In (EvFillDefaults arg) tr -> arg = given) /\
  ((filter is_FillDefaults tr = [] /\ final = built) \/
   (filter is_FillDefaults tr <> [] /\ filter is_Apply tr = [] /\ final = defaulted) \/
   (exists got c1 ret c2,
      Get controller (Name defaulted) c = (got, c1) /\
      Apply controller defaulted c1 = (ret, final, c2) /\
      filter is_Apply tr = [EvApply defaulted ret])) /\
  (keeps TypeMeta_ (FillDefaults env) given ->
   (forall c', keeps TypeMeta_ (Apply_writes controller c') defaulted) ->
   TypeMeta_ final = registry_TypeMeta env).
Proof.
  intros built w given defaulted tr final. subst w given defaulted tr final.
  unfold keeps.
  pose proof (buildRegistry_TypeMeta env fa) as Hbuilt. fold built in Hbuilt.
  split; [repeat split; try reflexivity; exact Hbuilt|].
  run_paths env controller.
  all: split; [intros arg Hin; in_cases Hin; injection Hin as <-; reflexivity|].
  all: split;
    [ first [ left; split; reflexivity
            | right; left; split; [cbn; discriminate|split; reflexivity]
            | right; right; eexists _, _, _, _;
              (split; [reflexivity|]); (split; [exact AP|]); reflexivity ]
    | intros HFill HApply ].
  all: try match goal with
           | AP : Apply controller _ ?cx = _ |- _ =>
               pose proof (HApply cx) as HA; unfold Apply_writes in HA;
               rewrite AP in HA; cbn [fst snd] in HA; rewrite HA
           end.
  all: try rewrite HFill; exact Hbuilt.
Qed.

(** C7, as amended.  In an execution of [run] that acquires the telemetry
    handle, [Name] is assigned once, from the positional argument: no
    assignment, defaulting or existence check comes before it, and after
    it come no further assignment, the one call to [FillDefaults] (on the
    resource built from the flags with its name set) and the one call to
    [Get].  [Get] receives the name only; defaulting and [Apply] receive a
    pointer to the resource, and when they keep its name the resource is
    still named after the argument when [run] is over. *)
Theorem Name_assigned_once_before_guard
        (fa : FlagArgs) (c : C) (t : T) (out eout : string) (log : list (Event E))
        (a : Analytics T) :
  let built := buildRegistry env fa in
  let w := mkWorld built c t out eout log in
  let tr := run_trace env controller name w in
  let touches (ev : Event E) := is_AssignName ev || is_FillDefaults ev || is_Get ev in
  newAnalytics env = inl a ->
  (exists pre post got,
     tr = (pre ++ EvAssignName name :: post)%list /\
     filter touches pre = [] /\
     filter touches post =
       [EvFillDefaults (set_Name name built);
        EvGet (Name (FillDefaults env (set_Name name built))) got]) /\
  (keeps Name (FillDefaults env) (set_Name name built) ->
   (forall c', keeps Name (Apply_writes controller c')
                     (FillDefaults env (set_Name name built))) ->
   Name (o_Registry (snd (run env controller name w))) = name).
Proof.
  intros built w tr touches. subst w tr touches. unfold keeps. intros Hnew.
  run_paths env controller; try discriminate.
  all: split;
    [ exists [EvNewAnalytics None; EvIncr "cmd.create.registry" []];
      eexists _, _; split; [reflexivity|]; split; reflexivity
    | intros HFill HApply ].
  all: try match goal with
           | AP : Apply controller _ ?cx = _ |- _ =>
               pose proof (HApply cx) as HA; unfold Apply_writes in HA;
               rewrite AP in HA; cbn [fst snd] in HA; rewrite HA
           end.
  all: exact HFill.
Qed.
End Resource.

Section Independence.
Context {E : Type} `{ErrorText E} {C T : Type}.
Variables (env : Env E C T) (name : string) (w : World E C T).

(** C3, as amended.  What the telemetry handle does when the counter is
    sent or when it is flushed has no bearing on the workflow: with any
    two handles and any two telemetry states, [run] returns the same
    result, makes the same calls, and leaves the same resource, controller
    state and output.  A failure to acquire the handle is different: [run]
    returns that error, having done nothing else. *)
Theorem telemetry_outcome (controller : registryCreator E C) :
  (forall (a1 a2 : Analytics T) (t1 t2 : T),
     let x1 := run (with_newAnalytics (inl a1) env) controller name (with_tel t1 w) in
     let x2 := run (with_newAnalytics (inl a2) env) controller name (with_tel t2 w) in
     fst x1 = fst x2 /\
     calls (snd x1) = calls (snd x2) /\
     o_Registry (snd x1) = o_Registry (snd x2) /\
     ctl (snd x1) = ctl (snd x2) /\
     Out (snd x1) = Out (snd x2) /\
     ErrOut (snd x1) = ErrOut (snd x2)) /\
  (forall e : error E,
     run (with_newAnalytics (inr e) env) controller name w =
     (Some e, mkWorld (o_Registry w) (ctl w) (tel w) (Out w) (ErrOut w)
                      (calls w ++ [EvNewAnalytics (Some e)])%list)).
Proof.
  destruct w as [r0 c0 t0 out0 eout0 log0]. split.
  - intros a1 a2 t1 t2.
    run_step.
    destruct (Get controller _ _) as [[got [gerr|]] c1]; run_step;
      [destruct (IsNotFound env gerr); run_step|];
      [destruct (Apply controller _ _) as [[[applied [aerr|]] r'] c2]; run_step| |];
      [ |destruct (ToPrinter env) as [p|perr]; run_step| |];
      [ |destruct (PrintObj p applied) as [text [perr|]]; run_step| | |].
    all: repeat split; reflexivity.
  - intros e. reflexivity.
Qed.

(** C10.  Two controllers that differ only in the resource their [Get]
    returns (same error, same effect on the controller, same [Apply]) give
    [run] the same result and the same final state, and the same calls up
    to the resource recorded for [Get].  When [Get] returns a nil resource
    with a nil error, [run] returns the "already exists" error and does
    not call [Apply]. *)
Theorem outcome_independent_of_found_resource (controller1 controller2 : registryCreator E C) :
  (forall r c, Apply controller1 r c = Apply controller2 r c) ->
  (forall n c, snd (fst (Get controller1 n c)) = snd (fst (Get controller2 n c)) /\
               snd (Get controller1 n c) = snd (Get controller2 n c)) ->
  let x1 := run env controller1 name w in
  let x2 := run env controller2 name w in
  (fst x1 = fst x2 /\
   map forget_got (calls (snd x1)) = map forget_got (calls (snd x2)) /\
   o_Registry (snd x1) = o_Registry (snd x2) /\
   ctl (snd x1) = ctl (snd x2) /\
   tel (snd x1) = tel (snd x2) /\
   Out (snd x1) = Out (snd x2) /\
   ErrOut (snd x1) = ErrOut (snd x2)) /\
  (forall n, In (EvGet n (None, None)) (run_trace env controller1 name w) ->
     fst x1 = Some (errorString "Cannot create registry: already exists") /\
     Contains "Cannot create registry: already exists" "already exists" = true /\
     filter is_Apply (run_trace env controller1 name w) = []).
Proof.
  intros HApply HGet. destruct w as [r0 c0 t0 out0 eout0 log0]. split.
  - run_step.
    destruct (newAnalytics env) as [a|e]; run_step; [|repeat split; reflexivity].
    specialize (HGet (Name (FillDefaults env (set_Name name r0))) c0).
    destruct (Get controller1 _ _) as [[got1 gerr1] c1].
    destruct (Get controller2 _ _) as [[got2 gerr2] c2].
    cbn [fst snd] in HGet. destruct HGet as [<- <-]. run_step.
    destruct gerr1 as [gerr|]; run_step;
      [|rewrite !map_app; repeat split; reflexivity].
    destruct (IsNotFound env gerr); run_step;
      [|rewrite !map_app; repeat split; reflexivity].
    rewrite <- HApply.
    destruct (Apply controller1 _ _) as [[[applied [aerr|]] r'] c2]; run_step;
      [rewrite !map_app; repeat split; reflexivity|].
    destruct (ToPrinter env) as [p|perr]; run_step;
      [|rewrite !map_app; repeat split; reflexivity].
    destruct (PrintObj p applied) as [text [perr|]]; run_step;
      rewrite !map_app; repeat split; reflexivity.
  - intros n. run_paths env controller1; intros Hin; in_cases Hin.
    repeat split; reflexivity.
Qed.
End Independence.

(** ** The properties on the test double *)

Lemma existence_guard_classifies_witness :
  In (EvGet "ctlptl-registry" (Some Fake.existing, None))
     (run_trace Fake.env Fake.controller "ctlptl-registry"
                (Fake.world noFlags [Fake.existing])) /\
  ((exists err,
      fst (run Fake.env Fake.controller "ctlptl-registry"
               (Fake.world noFlags [Fake.existing])) = Some err /\
      Error err = "Cannot create registry: already exists" /\
      Contains (Error err) "already exists" = true) /\
   filter is_Apply (run_trace Fake.env Fake.controller "ctlptl-registry"
                              (Fake.world noFlags [Fake.existing])) = []).
Proof.
  assert (Hin : In (EvGet "ctlptl-registry" (Some Fake.existing, None))
                   (run_trace Fake.env Fake.controller "ctlptl-registry"
                              (Fake.world noFlags [Fake.existing])))
    by (vm_compute; in_list).
  split; [exact Hin|].
  exact (existence_guard_classifies Fake.env Fake.controller "ctlptl-registry"
           (Fake.world noFlags [Fake.existing]) "ctlptl-registry"
           (Some Fake.existing, None) Hin).
Defined.

Lemma Apply_called_once_with_defaulted_resource_witness :
  In (EvGet "ctlptl-registry" (None, Some Fake.notFound))
     (run_trace Fake.env Fake.controller "ctlptl-registry"
                (mkWorld (buildRegistry Fake.env Fake.proxyFlags) [] [] "" "" [])) /\
  IsNotFound Fake.env Fake.notFound = true /\
  (exists ret c1 r' c2,
     filter is_Apply
            (run_trace Fake.env Fake.controller "ctlptl-registry"
                       (mkWorld (buildRegistry Fake.env Fake.proxyFlags) [] [] "" "" [])) =
       [EvApply (FillDefaults Fake.env
                   (set_Name "ctlptl-registry" (buildRegistry Fake.env Fake.proxyFlags)))
                ret] /\
     Get Fake.controller
         (Name (FillDefaults Fake.env
                  (set_Name "ctlptl-registry" (buildRegistry Fake.env Fake.proxyFlags))))
         [] = ((None, Some Fake.notFound), c1) /\
     Apply Fake.controller
           (FillDefaults Fake.env
              (set_Name "ctlptl-registry" (buildRegistry Fake.env Fake.proxyFlags)))
           c1 = (ret, r', c2) /\
     ctl (snd (run Fake.env Fake.controller "ctlptl-registry"
                   (mkWorld (buildRegistry Fake.env Fake.proxyFlags) [] [] "" "" []))) = c2) /\
  Name (FillDefaults Fake.env
          (set_Name "ctlptl-registry" (buildRegistry Fake.env Fake.proxyFlags))) =
    "ctlptl-registry" /\
  Proxy (FillDefaults Fake.env
           (set_Name "ctlptl-registry" (buildRegistry Fake.env Fake.proxyFlags))) =
    Some (mkProxy "https://registry-1.docker.io" "" "" "").
Proof.
  assert (Hin : In (EvGet "ctlptl-registry" (None, Some Fake.notFound))
                   (run_trace Fake.env Fake.controller "ctlptl-registry"
                      (mkWorld (buildRegistry Fake.env Fake.proxyFlags) [] [] "" "" [])))
    by (vm_compute; in_list).
  assert (Hnf : IsNotFound Fake.env Fake.notFound = true) by reflexivity.
  split; [exact Hin|]. split; [exact Hnf|].
  destruct (Apply_called_once_with_defaulted_resource Fake.env Fake.controller
              "ctlptl-registry" Fake.proxyFlags [] [] "" "" [] "ctlptl-registry" None
              Fake.notFound Hin Hnf) as [_ [Hcall [Hname _]]].
  split; [exact Hcall|]. split; [apply Hname; reflexivity | reflexivity].
Defined.

(** C2 fails on the code.  With a defaulting step that names unnamed
    resources and the empty string as the one positional argument, [Get]
    answers not-found and [Apply] receives a resource that is not named
    after the argument.  With a defaulting step that leaves out a proxy
    without credentials and only [--proxy-remote-url] given, [Apply]
    receives a resource without a proxy although the flag is not empty. *)
Lemma Apply_receives_what_defaulting_made :
  (ExactArgs 1 [""] = true /\
   In (EvGet "ctlptl-registry" (None, Some Fake.notFound))
      (run_trace Fake.naming Fake.controller ""
                 (mkWorld (buildRegistry Fake.naming noFlags) [] [] "" "" [])) /\
   IsNotFound Fake.naming Fake.notFound = true /\
   exists arg ret,
     filter is_Apply
            (run_trace Fake.naming Fake.controller ""
                       (mkWorld (buildRegistry Fake.naming noFlags) [] [] "" "" [])) =
       [EvApply arg ret] /\
     Name arg <> "") /\
  (In (EvGet "ctlptl-registry" (None, Some Fake.notFound))
      (run_trace Fake.proxyDropping Fake.controller "ctlptl-registry"
                 (mkWorld (buildRegistry Fake.proxyDropping Fake.proxyFlags) [] [] "" "" [])) /\
   IsNotFound Fake.proxyDropping Fake.notFound = true /\
   flagValue (flag_proxy_remote_url Fake.proxyFlags) "" <> "" /\
   exists arg ret,
     filter is_Apply
            (run_trace Fake.proxyDropping Fake.controller "ctlptl-registry"
                       (mkWorld (buildRegistry Fake.proxyDropping Fake.proxyFlags)
                                [] [] "" "" [])) =
       [EvApply arg ret] /\
     Proxy arg = None).
Proof.
  split.
  - split; [reflexivity|]. split; [vm_compute; in_list|]. split; [reflexivity|].
    eexists _, _. split; [vm_compute; reflexivity|]. cbn. discriminate.
  - split; [vm_compute; in_list|]. split; [reflexivity|].
    split; [cbn; discriminate|].
    eexists _, _. split; [vm_compute; reflexivity|]. reflexivity.
Qed.

(** C3 fails on the code: when the telemetry handle cannot be acquired,
    [run] returns the telemetry error, where the same invocation with
    telemetry at work creates the registry and returns no error. *)
Lemma telemetry_failure_changes_outcome :
  fst (run Fake.noTelemetry Fake.controller "ctlptl-registry" (Fake.world noFlags [])) =
    Some (foreign "telemetry unavailable") /\
  fst (run Fake.env Fake.controller "ctlptl-registry" (Fake.world noFlags [])) = None /\
  fst (run Fake.noTelemetry Fake.controller "ctlptl-registry" (Fake.world noFlags [])) <>
  fst (run Fake.env Fake.controller "ctlptl-registry" (Fake.world noFlags [])).
Proof.
  split; [reflexivity|]. split; [reflexivity|].
  vm_compute. discriminate.
Qed.

(** C4 fails on the code: with a printer that cannot be built, [Apply]
    creates the registry and [run] still returns an error, so neither of
    the two terminal states of the claim holds. *)
Lemma run_fails_after_Apply_created :
  ~ ((fst (run Fake.noPrinter Fake.controller "ctlptl-registry" (Fake.world noFlags [])) = None /\
      existsb created
        (run_trace Fake.noPrinter Fake.controller "ctlptl-registry" (Fake.world noFlags [])) = true)
     \/
     (fst (run Fake.noPrinter Fake.controller "ctlptl-registry" (Fake.world noFlags [])) <> None /\
      existsb created
        (run_trace Fake.noPrinter Fake.controller "ctlptl-registry" (Fake.world noFlags [])) = false)).
Proof.
  vm_compute. intros [[Hres _]|[_ Hcreated]]; discriminate.
Qed.

Lemma Apply_error_verbatim_witness :
  In (EvApply (FillDefaults Fake.env (set_Name "ctlptl-registry" (buildRegistry Fake.env noFlags)))
              (None, Some (foreign "port in use")))
     (run_trace Fake.env Fake.failing "ctlptl-registry" (Fake.world noFlags [])) /\
  fst (run Fake.env Fake.failing "ctlptl-registry" (Fake.world noFlags [])) =
    Some (foreign "port in use") /\
  filter is_Apply (run_trace Fake.env Fake.failing "ctlptl-registry" (Fake.world noFlags [])) =
    [EvApply (FillDefaults Fake.env (set_Name "ctlptl-registry" (buildRegistry Fake.env noFlags)))
             (None, Some (foreign "port in use"))].
Proof.
  assert (Hin : In (EvApply (FillDefaults Fake.env
                               (set_Name "ctlptl-registry" (buildRegistry Fake.env noFlags)))
                            (None, Some (foreign "port in use")))
                   (run_trace Fake.env Fake.failing "ctlptl-registry" (Fake.world noFlags [])))
    by (vm_compute; in_list).
  split; [exact Hin|].
  exact (Apply_error_verbatim Fake.env Fake.failing "ctlptl-registry" (Fake.world noFlags [])
           _ None (foreign "port in use") Hin).
Defined.

(** C7 fails on the code, in both of its parts.  When the telemetry handle
    cannot be acquired, [run] returns before the assignment and [Name] is
    not assigned at all.  And the name does not always survive the steps
    that follow the assignment: a defaulting step that names unnamed
    resources renames the resource made for the argument "", and a
    controller whose [Apply] leaves the zero value behind the pointer
    clears the name. *)
Lemma Name_assignment_undone :
  (filter is_AssignName
          (run_trace Fake.noTelemetry Fake.controller "ctlptl-registry"
                     (Fake.world noFlags [])) = [] /\
   filter is_AssignName
          (run_trace Fake.noTelemetry Fake.controller "ctlptl-registry"
                     (Fake.world noFlags [])) <> [EvAssignName "ctlptl-registry"] /\
   Name (o_Registry (snd (run Fake.noTelemetry Fake.controller "ctlptl-registry"
                              (Fake.world noFlags [])))) = "") /\
  (In (EvFillDefaults (set_Name "" (buildRegistry Fake.naming noFlags)))
      (run_trace Fake.naming Fake.controller ""
                 (mkWorld (buildRegistry Fake.naming noFlags) [Fake.existing] [] "" "" [])) /\
   filter is_Apply
          (run_trace Fake.naming Fake.controller ""
                     (mkWorld (buildRegistry Fake.naming noFlags) [Fake.existing] [] "" "" [])) =
     [] /\
   Name (o_Registry (snd (run Fake.naming Fake.controller ""
                              (mkWorld (buildRegistry Fake.naming noFlags)
                                       [Fake.existing] [] "" "" [])))) <> "") /\
  (existsb created
           (run_trace Fake.env Fake.consuming "ctlptl-registry" (Fake.world noFlags [])) = true /\
   Name (FillDefaults Fake.env (set_Name "ctlptl-registry" (buildRegistry Fake.env noFlags))) =
     "ctlptl-registry" /\
   Name (o_Registry (snd (run Fake.env Fake.consuming "ctlptl-registry"
                              (Fake.world noFlags [])))) <> "ctlptl-registry").
Proof.
  split; [|split].
  - split; [reflexivity|]. split; [vm_compute; discriminate|reflexivity].
  - split; [vm_compute; in_list|]. split; [reflexivity|]. vm_compute. discriminate.
  - split; [reflexivity|]. split; [reflexivity|]. vm_compute. discriminate.
Qed.

Lemma Name_assigned_once_before_guard_witness :
  newAnalytics Fake.env = inl Fake.analytics /\
  (exists pre post got,
     run_trace Fake.env Fake.controller "ctlptl-registry"
               (mkWorld (buildRegistry Fake.env Fake.proxyFlags) [] [] "" "" []) =
       (pre ++ EvAssignName "ctlptl-registry" :: post)%list /\
     filter (fun ev => is_AssignName ev || is_FillDefaults ev || is_Get ev) pre = [] /\
     filter (fun ev => is_AssignName ev || is_FillDefaults ev || is_Get ev) post =
       [EvFillDefaults (set_Name "ctlptl-registry" (buildRegistry Fake.env Fake.proxyFlags));
        EvGet (Name (FillDefaults Fake.env
                       (set_Name "ctlptl-registry" (buildRegistry Fake.env Fake.proxyFlags))))
              got]) /\
  Name (o_Registry (snd (run Fake.env Fake.controller "ctlptl-registry"
                             (mkWorld (buildRegistry Fake.env Fake.proxyFlags) [] [] "" "" [])))) =
    "ctlptl-registry".
Proof.
  assert (Hnew : newAnalytics Fake.env = inl Fake.analytics) by reflexivity.
  split; [exact Hnew|].
  destruct (Name_assigned_once_before_guard Fake.env Fake.controller "ctlptl-registry"
              Fake.proxyFlags [] [] "" "" [] Fake.analytics Hnew) as [Htrace Hname].
  split; [exact Htrace|].
  apply Hname; [reflexivity | intros c'; reflexivity].
Defined.

Lemma printed_object_is_what_Apply_returned_witness :
  In (EvPrintObj (Some (set_Port 5000 (FillDefaults Fake.showingPort
                                         (set_Name "ctlptl-registry"
                                                   (o_Registry (Fake.world noFlags []))))))
                 None)
     (run_trace Fake.showingPort Fake.controller "ctlptl-registry" (Fake.world noFlags [])) /\
  (exists got c1 r' c2 printer,
     Get Fake.controller
         (Name (FillDefaults Fake.showingPort
                  (set_Name "ctlptl-registry" (o_Registry (Fake.world noFlags [])))))
         (ctl (Fake.world noFlags [])) = (got, c1) /\
     Apply Fake.controller
           (FillDefaults Fake.showingPort
              (set_Name "ctlptl-registry" (o_Registry (Fake.world noFlags [])))) c1 =
       ((Some (set_Port 5000 (FillDefaults Fake.showingPort
                                (set_Name "ctlptl-registry"
                                          (o_Registry (Fake.world noFlags []))))),
         None), r', c2) /\
     ToPrinter Fake.showingPort = inl printer /\
     snd (PrintObj printer
            (Some (set_Port 5000 (FillDefaults Fake.showingPort
                                    (set_Name "ctlptl-registry"
                                              (o_Registry (Fake.world noFlags []))))))) =
       None /\
     Out (snd (run Fake.showingPort Fake.controller "ctlptl-registry"
                   (Fake.world noFlags []))) =
       Out (Fake.world noFlags []) ++
       fst (PrintObj printer
              (Some (set_Port 5000 (FillDefaults Fake.showingPort
                                      (set_Name "ctlptl-registry"
                                                (o_Registry (Fake.world noFlags []))))))) /\
     fst (run Fake.showingPort Fake.controller "ctlptl-registry" (Fake.world noFlags [])) =
       None) /\
  Port (FillDefaults Fake.showingPort
          (set_Name "ctlptl-registry" (o_Registry (Fake.world noFlags [])))) = 0 /\
  Out (snd (run Fake.showingPort Fake.controller "ctlptl-registry" (Fake.world noFlags []))) =
    "ctlptl-registry:5000" ++ String "010" "".
Proof.
  assert (Hin :
    In (EvPrintObj (Some (set_Port 5000 (FillDefaults Fake.showingPort
                                           (set_Name "ctlptl-registry"
                                                     (o_Registry (Fake.world noFlags []))))))
                   None)
       (run_trace Fake.showingPort Fake.controller "ctlptl-registry" (Fake.world noFlags [])))
    by (vm_compute; in_list).
  split; [exact Hin|].
  split; [|split; vm_compute; reflexivity].
  exact (proj1 (printed_object_is_what_Apply_returned Fake.showingPort Fake.controller
                  "ctlptl-registry" (Fake.world noFlags [])) _ _ Hin).
Defined.

Lemma TypeMeta_written_at_construction_only_witness :
  keeps TypeMeta_ (FillDefaults Fake.env)
        (set_Name "ctlptl-registry" (buildRegistry Fake.env Fake.proxyFlags)) /\
  (forall c', keeps TypeMeta_ (Apply_writes Fake.controller c')
                    (FillDefaults Fake.env
                       (set_Name "ctlptl-registry" (buildRegistry Fake.env Fake.proxyFlags)))) /\
  existsb created
          (run_trace Fake.env Fake.controller "ctlptl-registry"
                     (mkWorld (buildRegistry Fake.env Fake.proxyFlags) [] [] "" "" [])) = true /\
  TypeMeta_ (o_Registry (snd (run Fake.env Fake.controller "ctlptl-registry"
                                  (mkWorld (buildRegistry Fake.env Fake.proxyFlags)
                                           [] [] "" "" [])))) =
    registry_TypeMeta Fake.env.
Proof.
  assert (Hfill : keeps TypeMeta_ (FillDefaults Fake.env)
                        (set_Name "ctlptl-registry" (buildRegistry Fake.env Fake.proxyFlags)))
    by reflexivity.
  assert (Happly : forall c', keeps TypeMeta_ (Apply_writes Fake.controller c')
                    (FillDefaults Fake.env
                       (set_Name "ctlptl-registry" (buildRegistry Fake.env Fake.proxyFlags))))
    by (intros c'; reflexivity).
  split; [exact Hfill|]. split; [exact Happly|]. split; [reflexivity|].
  exact (proj2 (proj2 (proj2 (TypeMeta_written_at_construction_only
                                Fake.env Fake.controller "ctlptl-registry"
                                Fake.proxyFlags [] [] "" "" []))) Hfill Happly).
Defined.

(** C9 fails on the code: the defaulting step and the create step receive
    a pointer to the resource and can write its [TypeMeta].  With a
    controller whose [Apply] leaves the zero value behind the pointer, and
    with a defaulting step that moves the resource to another API version,
    the resource does not have the [TypeMeta] set at construction when
    [run] is over. *)
Lemma TypeMeta_rewritten_through_pointer :
  (existsb created
           (run_trace Fake.env Fake.consuming "ctlptl-registry" (Fake.world noFlags [])) = true /\
   TypeMeta_ (o_Registry (Fake.world noFlags [])) = registry_TypeMeta Fake.env /\
   TypeMeta_ (o_Registry (snd (run Fake.env Fake.consuming "ctlptl-registry"
                                   (Fake.world noFlags [])))) <>
     registry_TypeMeta Fake.env) /\
  (TypeMeta_ (buildRegistry Fake.upgrading noFlags) = registry_TypeMeta Fake.upgrading /\
   TypeMeta_ (o_Registry (snd (run Fake.upgrading Fake.controller "ctlptl-registry"
                                   (mkWorld (buildRegistry Fake.upgrading noFlags)
                                            [Fake.existing] [] "" "" [])))) <>
     registry_TypeMeta Fake.upgrading).
Proof.
  split.
  - split; [reflexivity|]. split; [reflexivity|]. vm_compute. discriminate.
  - split; [reflexivity|]. vm_compute. discriminate.
Qed.

Lemma outcome_independent_of_found_resource_witness :
  (forall r c, Apply Fake.controller r c = Apply Fake.forgetful r c) /\
  (forall n c,
     snd (fst (Get Fake.controller n c)) = snd (fst (Get Fake.forgetful n c)) /\
     snd (Get Fake.controller n c) = snd (Get Fake.forgetful n c)) /\
  fst (run Fake.env Fake.controller "ctlptl-registry" (Fake.world noFlags [Fake.existing])) =
  fst (run Fake.env Fake.forgetful "ctlptl-registry" (Fake.world noFlags [Fake.existing])) /\
  In (EvGet "ctlptl-registry" (None, None))
     (run_trace Fake.env Fake.forgetful "ctlptl-registry" (Fake.world noFlags [Fake.existing])) /\
  fst (run Fake.env Fake.forgetful "ctlptl-registry" (Fake.world noFlags [Fake.existing])) =
    Some (errorString "Cannot create registry: already exists").
Proof.
  assert (Happly : forall r c, Apply Fake.controller r c = Apply Fake.forgetful r c)
    by (intros r c; reflexivity).
  assert (Hget : forall n c,
             snd (fst (Get Fake.controller n c)) = snd (fst (Get Fake.forgetful n c)) /\
             snd (Get Fake.controller n c) = snd (Get Fake.forgetful n c))
    by (intros n c; simpl; destruct (Fake.lookup n c); split; reflexivity).
  split; [exact Happly|]. split; [exact Hget|].
  split.
  - exact (proj1 (proj1 (outcome_independent_of_found_resource Fake.env "ctlptl-registry"
                           (Fake.world noFlags [Fake.existing])
                           Fake.controller Fake.forgetful Happly Hget))).
  - split; [vm_compute; in_list | reflexivity].
Defined.

(** * Further properties of the command *)

(** ** Flags and [PreRun] *)

Section Flags.
Context {E : Type} `{ErrorText E} {C T : Type}.
Variable env : Env E C T.

(** X2.  Proxy credentials and TTL count only together with a remote URL:
    when [proxy-remote-url] is left out or empty, the resource has no proxy
    whatever [proxy-username], [proxy-password] and [proxy-ttl] are, and the
    resource is the one the same command line gives without them. *)
Theorem proxy_flags_without_remote_url_are_dropped (fa : FlagArgs) :
  flagValue (flag_proxy_remote_url fa) "" = "" ->
  Proxy (buildRegistry env fa) = None /\
  buildRegistry env fa =
  buildRegistry env (mkFlagArgs (flag_port fa) (flag_listen_address fa) (flag_image fa)
                                None None None None).
Proof.
  intros Hurl. unfold buildRegistry, Command_flags, PreRun.
  cbn [proxyRemoteURL flag_proxy_remote_url flag_port flag_listen_address flag_image
       flagValue].
  rewrite Hurl. cbn [String.eqb negb]. split; reflexivity.
Qed.
End Flags.

Lemma proxy_flags_without_remote_url_are_dropped_witness :
  flagValue (flag_proxy_remote_url Fake.credentialsOnly) "" = "" /\
  Proxy (buildRegistry Fake.env Fake.credentialsOnly) = None /\
  buildRegistry Fake.env Fake.credentialsOnly = buildRegistry Fake.env noFlags.
Proof.
  assert (Hurl : flagValue (flag_proxy_remote_url Fake.credentialsOnly) "" = "")
    by reflexivity.
  split; [exact Hurl|].
  exact (proxy_flags_without_remote_url_are_dropped Fake.env Fake.credentialsOnly Hurl).
Defined.

(** ** The calls of [run] *)

Section Calls.
Context {E : Type} `{ErrorText E} {C T : Type}.
Variables (env : Env E C T) (controller : registryCreator E C).
Variables (name : string) (w : World E C T).

(** X3.  The calls of an execution of [run], in order.  Without a telemetry
    handle there is the call to [newAnalytics] and nothing else.  With one,
    the counter is sent, the name assigned, the resource defaulted and
    looked up by the name defaulting left; then, only after a not-found
    answer, [Apply] on the defaulted resource, then, only after [Apply]
    succeeded, [ToPrinter], then, only with a printer, [PrintObj] on what
    [Apply] returned; the flush comes last. *)
Theorem run_call_sequence :
  let r1 := FillDefaults env (set_Name name (o_Registry w)) in
  let tr := run_trace env controller name w in
  match newAnalytics env with
  | inr e => tr = [EvNewAnalytics (Some e)]
  | inl _ =>
      exists got rest,
        tr = ([EvNewAnalytics None; EvIncr "cmd.create.registry" [];
               EvAssignName name; EvFillDefaults (set_Name name (o_Registry w));
               EvGet (Name r1) got] ++ rest ++ [EvFlush Second])%list /\
        ((rest = [] /\
          (snd got = None \/ exists e, snd got = Some e /\ IsNotFound env e = false)) \/
         (exists e applied,
            snd got = Some e /\ IsNotFound env e = true /\
            ((exists aerr, rest = [EvApply r1 (applied, Some aerr)]) \/
             (exists perr, ToPrinter env = inr perr /\
                           rest = [EvApply r1 (applied, None); EvToPrinter (Some perr)]) \/
             (exists p, ToPrinter env = inl p /\
                        rest = [EvApply r1 (applied, None); EvToPrinter None;
                                EvPrintObj applied (snd (PrintObj p applied))]))))
  end.
Proof.
  destruct w as [r0 c0 t0 out0 eout0 log0]. cbn [o_Registry].
  run_paths env controller; try reflexivity.
  - (* Apply failed *)
    exists (got, Some gerr), [EvApply (FillDefaults env (set_Name name r0)) (applied, Some aerr)].
    split; [reflexivity|]. right.
    eexists _, _. cbn [snd]. split; [reflexivity|]. split; [exact NF|].
    left. eexists. reflexivity.
  - (* PrintObj returned an error *)
    exists (got, Some gerr),
           [EvApply (FillDefaults env (set_Name name r0)) (applied, None);
            EvToPrinter None; EvPrintObj applied (Some perr)].
    split; [reflexivity|]. right.
    eexists _, _. cbn [snd]. split; [reflexivity|]. split; [exact NF|].
    right; right. eexists. split; [reflexivity|]. rewrite PO. reflexivity.
  - (* printed *)
    exists (got, Some gerr),
           [EvApply (FillDefaults env (set_Name name r0)) (applied, None);
            EvToPrinter None; EvPrintObj applied None].
    split; [reflexivity|]. right.
    eexists _, _. cbn [snd]. split; [reflexivity|]. split; [exact NF|].
    right; right. eexists. split; [reflexivity|]. rewrite PO. reflexivity.
  - (* no printer *)
    exists (got, Some gerr),
           [EvApply (FillDefaults env (set_Name name r0)) (applied, None);
            EvToPrinter (Some perr)].
    split; [reflexivity|]. right.
    eexists _, _. cbn [snd]. split; [reflexivity|]. split; [exact NF|].
    right; left. eexists. split; reflexivity.
  - (* another error from Get *)
    exists (got, Some gerr), []. split; [reflexivity|]. left.
    split; [reflexivity|]. right. eexists. split; [reflexivity|exact NF].
  - (* found *)
    exists (got, None), []. split; [reflexivity|]. left.
    split; [reflexivity|]. left. reflexivity.
Qed.

(** X4.  Once the telemetry handle is acquired, every path through [run]
    sends the counter "cmd.create.registry" once, without tags, and flushes
    once with a timeout of one second, as its last call: the telemetry
    state at the end is the flush of the increment of the state at the
    start, whatever the controller and the printer did. *)
Theorem telemetry_sent_and_flushed (a : Analytics T) :
  newAnalytics env = inl a ->
  tel (snd (run env controller name w)) =
    Flush a Second (Incr a "cmd.create.registry" [] (tel w)) /\
  filter is_telemetry (run_trace env controller name w) =
    [EvNewAnalytics None; EvIncr "cmd.create.registry" []; EvFlush Second] /\
  last (run_trace env controller name w) (EvNewAnalytics None) = EvFlush Second.
Proof.
  destruct w as [r0 c0 t0 out0 eout0 log0].
  run_paths env controller; intros Hnew; try discriminate Hnew;
    injection Hnew as ->; repeat split; reflexivity.
Qed.

(** X5.  What the command itself writes during [run] (the streams of the
    model record the writes of the command and of its printer, not what a
    controller built with the same streams may print): [run] never writes
    to the error stream, and it writes to the output stream only on the
    path where [Apply] created the resource; in an execution without a
    successful [Apply], both streams are as they were. *)
Theorem run_output_streams :
  ErrOut (snd (run env controller name w)) = ErrOut w /\
  (existsb created (run_trace env controller name w) = false ->
   Out (snd (run env controller name w)) = Out w).
Proof.
  destruct w as [r0 c0 t0 out0 eout0 log0].
  run_paths env controller; split; try reflexivity; intros Hc; try reflexivity;
    cbn in Hc; discriminate Hc.
Qed.

(** X6.  The existence check and the creation are about the same resource:
    the name [Get] is asked for is the name of the resource [Apply] is
    given, and that resource is what defaulting made of the resource of the
    options with its name set to the argument. *)
Theorem Get_and_Apply_on_defaulted_resource
        (n : string) (got : RegistryResult E) (arg : Registry) (ret : RegistryResult E) :
  In (EvGet n got) (run_trace env controller name w) ->
  In (EvApply arg ret) (run_trace env controller name w) ->
  n = Name arg /\ arg = FillDefaults env (set_Name name (o_Registry w)).
Proof.
  destruct w as [r0 c0 t0 out0 eout0 log0].
  run_paths env controller; intros Hget Happly; in_cases Hget; in_cases Happly;
    injection Hget as <- <-; injection Happly as <- <-; split; reflexivity.
Qed.

(** X7.  [Apply] runs on the controller as [Get] left it, and what [run]
    leaves behind is what [Apply] left: the controller state after [Apply],
    and in the options the resource as [Apply] wrote it. *)
Theorem Apply_follows_Get (arg : Registry) (ret : RegistryResult E) :
  In (EvApply arg ret) (run_trace env controller name w) ->
  exists got c1 r' c2,
    Get controller (Name arg) (ctl w) = (got, c1) /\
    Apply controller arg c1 = (ret, r', c2) /\
    ctl (snd (run env controller name w)) = c2 /\
    o_Registry (snd (run env controller name w)) = r'.
Proof.
  destruct w as [r0 c0 t0 out0 eout0 log0]. cbn [ctl].
  run_paths env controller; intros Happly; in_cases Happly;
    injection Happly as <- <-;
    eexists _, _, _, _; (split; [exact GET|]); (split; [exact AP|]);
    split; reflexivity.
Qed.

(** X8.  When the existence check stops the workflow ([Get] called, [Apply]
    not), the controller is as [Get] left it, the command has printed
    nothing, and the resource of the options is the defaulted one: the
    failed command has already renamed and defaulted it. *)
Theorem guard_stops_before_creation (n : string) (got : RegistryResult E) :
  In (EvGet n got) (run_trace env controller name w) ->
  filter is_Apply (run_trace env controller name w) = [] ->
  ctl (snd (run env controller name w)) = snd (Get controller n (ctl w)) /\
  o_Registry (snd (run env controller name w)) =
    FillDefaults env (set_Name name (o_Registry w)) /\
  Out (snd (run env controller name w)) = Out w.
Proof.
  destruct w as [r0 c0 t0 out0 eout0 log0]. cbn [ctl o_Registry Out].
  run_paths env controller; intros Hget Hnone; in_cases Hget;
    try discriminate Hnone;
    injection Hget as <- <-; rewrite GET; repeat split; reflexivity.
Qed.
End Calls.

(** ** One invocation of the command *)

Lemma run_leaves_ErrOut {E : Type} `{ErrorText E} {C T : Type}
      (env : Env E C T) (controller : registryCreator E C) (name : string)
      (w : World E C T) :
  ErrOut (snd (run env controller name w)) = ErrOut w.
Proof.
  destruct w as [r0 c0 t0 out0 eout0 log0].
  run_paths env controller; reflexivity.
Qed.

Ltac unfold_Execute :=
  unfold Execute, ExactArgs, Run, NewCreateRegistryOptions, write_ErrOut, errorLine;
  cbn [List.length Nat.eqb ctl tel Out ErrOut calls].

Section Invocation.
Context {E : Type} `{ErrorText E} {C T : Type}.
Variable env : Env E C T.
Variables (fa : FlagArgs) (c : C) (t : T).

(** X10.  When no controller can be built, the invocation writes the error
    on a line of the error stream and exits with status 1, having done
    nothing else: no telemetry, no call to a controller, nothing on the
    output stream, and the resource as the flags built it. *)
Theorem Execute_without_controller (name : string) (err : error E) :
  DefaultController env = inr err ->
  Execute env fa [name] c t =
  Some (Exited 1, mkWorld (buildRegistry env fa) c t "" (errorLine err) []).
Proof.
  intros Hctl. unfold_Execute. rewrite Hctl. reflexivity.
Qed.

(** X11.  Status 0 means created and reported: when the invocation
    returns, a controller was built, [Apply] returned a resource with a nil
    error, what the command wrote to the output stream is exactly what the
    printer wrote for that resource, and the command wrote nothing to the
    error stream.  The call on record is the controller's own: [Apply] on
    the state [Get] left, returning that resource and leaving the final
    state and the final resource of the options. *)
Theorem Execute_success (args : list string) (w' : World E C T) :
  Execute env fa args c t = Some (Returned, w') ->
  exists name controller arg obj printer,
    args = [name] /\
    DefaultController env = inl controller /\
    In (EvApply arg (obj, None)) (calls w') /\
    ToPrinter env = inl printer /\
    PrintObj printer obj = (Out w', None) /\
    ErrOut w' = "" /\
    exists got c1,
      Get controller (Name arg) c = (got, c1) /\
      Apply controller arg c1 = ((obj, None), o_Registry w', ctl w').
Proof.
  destruct args as [|name [|x xs]]; [cbn; discriminate | | cbn; discriminate].
  unfold_Execute.
  destruct (DefaultController env) as [controller|derr] eqn:DC;
    [|run_step; discriminate].
  run_paths env controller; intros Heq; try discriminate Heq.
  injection Heq as <-. cbn [calls Out ErrOut].
  eexists name, controller, _, applied, p.
  split; [reflexivity|]. split; [reflexivity|]. split; [in_list|].
  split; [reflexivity|]. split; [exact PO|]. split; [reflexivity|].
  eexists _, _. split; [exact GET|exact AP].
Qed.

(** X12.  Status 1 comes with one line written by the command to the error
    stream, the text of the error followed by a newline and nothing else;
    the error is the one from building the controller, in which case no
    call was made, or the one [run] returned. *)
Theorem Execute_failure (args : list string) (code : Z) (w' : World E C T) :
  Execute env fa args c t = Some (Exited code, w') ->
  code = 1 /\
  exists err,
    ErrOut w' = errorLine err /\
    ((DefaultController env = inr err /\ calls w' = []) \/
     (exists controller name,
        args = [name] /\ DefaultController env = inl controller /\
        fst (run env controller name (mkWorld (buildRegistry env fa) c t "" "" [])) =
          Some err)).
Proof.
  destruct args as [|name [|x xs]]; [cbn; discriminate | | cbn; discriminate].
  intros Heq.
  destruct (DefaultController env) as [controller|derr] eqn:DC.
  - rewrite (Execute_one_argument env fa name c t controller DC) in Heq.
    cbv zeta in Heq.
    pose proof (run_leaves_ErrOut env controller name
                  (mkWorld (buildRegistry env fa) c t "" "" [])) as Herr.
    destruct (run env controller name (mkWorld (buildRegistry env fa) c t "" "" []))
      as [[err|] w1] eqn:Hrun; cbn [fst snd ErrOut] in Heq, Herr;
      [|discriminate Heq].
    injection Heq as <- <-. split; [reflexivity|].
    exists err. cbn [ErrOut]. rewrite Herr. split; [reflexivity|].
    right. exists controller, name. rewrite Hrun. repeat split; reflexivity.
  - unfold Execute, ExactArgs, Run in Heq. cbn [List.length Nat.eqb] in Heq.
    rewrite DC in Heq. injection Heq as <- <-. split; [reflexivity|].
    exists derr. split; [reflexivity|]. left. split; reflexivity.
Qed.

(** X13.  Creating a registry that exists: with a controller and telemetry
    at hand, when [Get] answers the defaulted name with a nil error, the
    invocation exits with status 1, the command writes the line
    "Cannot create registry: already exists" to the error stream and
    nothing to the output stream, [Apply] is not called and the controller
    is as [Get] left it. *)
Theorem Execute_already_exists
        (name : string) (controller : registryCreator E C) (a : Analytics T)
        (got : option Registry) (c1 : C) :
  DefaultController env = inl controller ->
  newAnalytics env = inl a ->
  Get controller (Name (FillDefaults env (set_Name name (buildRegistry env fa)))) c =
    ((got, None), c1) ->
  exists w',
    Execute env fa [name] c t = Some (Exited 1, w') /\
    ErrOut w' = "Cannot create registry: already exists" ++ String "010" "" /\
    Out w' = "" /\
    filter is_Apply (calls w') = [] /\
    ctl w' = c1.
Proof.
  intros Hctl Hnew Hget. unfold_Execute. rewrite Hctl.
  run_step. rewrite Hnew. run_step. rewrite Hget. run_step.
  eexists. split; [reflexivity|]. tidy_trace. repeat split; reflexivity.
Qed.
End Invocation.

(** ** The further properties on the test double *)

Lemma telemetry_sent_and_flushed_witness :
  newAnalytics Fake.env = inl Fake.analytics /\
  tel (snd (run Fake.env Fake.unreachable "ctlptl-registry" (Fake.world noFlags []))) =
    Flush Fake.analytics Second
          (Incr Fake.analytics "cmd.create.registry" [] (tel (Fake.world noFlags []))) /\
  filter is_telemetry
         (run_trace Fake.env Fake.unreachable "ctlptl-registry" (Fake.world noFlags [])) =
    [EvNewAnalytics None; EvIncr "cmd.create.registry" []; EvFlush Second] /\
  last (run_trace Fake.env Fake.unreachable "ctlptl-registry" (Fake.world noFlags []))
       (EvNewAnalytics None) = EvFlush Second.
Proof.
  assert (Hnew : newAnalytics Fake.env = inl Fake.analytics) by reflexivity.
  split; [exact Hnew|].
  exact (telemetry_sent_and_flushed Fake.env Fake.unreachable "ctlptl-registry"
           (Fake.world noFlags []) Fake.analytics Hnew).
Defined.

Lemma run_output_streams_witness :
  existsb created
          (run_trace Fake.env Fake.failing "ctlptl-registry" (Fake.world noFlags [])) = false /\
  ErrOut (snd (run Fake.env Fake.failing "ctlptl-registry" (Fake.world noFlags []))) =
    ErrOut (Fake.world noFlags []) /\
  Out (snd (run Fake.env Fake.failing "ctlptl-registry" (Fake.world noFlags []))) =
    Out (Fake.world noFlags []).
Proof.
  assert (Hnone : existsb created
            (run_trace Fake.env Fake.failing "ctlptl-registry" (Fake.world noFlags [])) = false)
    by reflexivity.
  split; [exact Hnone|].
  destruct (run_output_streams Fake.env Fake.failing "ctlptl-registry"
              (Fake.world noFlags [])) as [Herr Hout].
  split; [exact Herr | exact (Hout Hnone)].
Defined.

Lemma Get_and_Apply_on_defaulted_resource_witness :
  In (EvGet "ctlptl-registry" (None, Some Fake.notFound))
     (run_trace Fake.env Fake.controller "ctlptl-registry" (Fake.world Fake.fullFlags [])) /\
  In (EvApply (Fake.fillDefaults
                 (set_Name "ctlptl-registry" (buildRegistry Fake.env Fake.fullFlags)))
              (Some (Fake.fillDefaults
                       (set_Name "ctlptl-registry" (buildRegistry Fake.env Fake.fullFlags))),
               None))
     (run_trace Fake.env Fake.controller "ctlptl-registry" (Fake.world Fake.fullFlags [])) /\
  "ctlptl-registry" =
    Name (Fake.fillDefaults
            (set_Name "ctlptl-registry" (buildRegistry Fake.env Fake.fullFlags))) /\
  Fake.fillDefaults (set_Name "ctlptl-registry" (buildRegistry Fake.env Fake.fullFlags)) =
    FillDefaults Fake.env
                 (set_Name "ctlptl-registry" (o_Registry (Fake.world Fake.fullFlags []))).
Proof.
  assert (Hget : In (EvGet "ctlptl-registry" (None, Some Fake.notFound))
                    (run_trace Fake.env Fake.controller "ctlptl-registry"
                               (Fake.world Fake.fullFlags [])))
    by (vm_compute; in_list).
  assert (Happly :
            In (EvApply (Fake.fillDefaults
                           (set_Name "ctlptl-registry" (buildRegistry Fake.env Fake.fullFlags)))
                        (Some (Fake.fillDefaults
                                 (set_Name "ctlptl-registry"
                                           (buildRegistry Fake.env Fake.fullFlags))),
                         None))
               (run_trace Fake.env Fake.controller "ctlptl-registry"
                          (Fake.world Fake.fullFlags [])))
    by (vm_compute; in_list).
  split; [exact Hget|]. split; [exact Happly|].
  exact (Get_and_Apply_on_defaulted_resource Fake.env Fake.controller "ctlptl-registry"
           (Fake.world Fake.fullFlags []) _ _ _ _ Hget Happly).
Defined.

Lemma Apply_follows_Get_witness :
  In (EvApply (Fake.fillDefaults
                 (set_Name "ctlptl-registry" (buildRegistry Fake.env Fake.fullFlags)))
              (Some (Fake.fillDefaults
                       (set_Name "ctlptl-registry" (buildRegistry Fake.env Fake.fullFlags))),
               None))
     (run_trace Fake.env Fake.controller "ctlptl-registry" (Fake.world Fake.fullFlags [])) /\
  exists got c1 r' c2,
    Get Fake.controller
        (Name (Fake.fillDefaults
                 (set_Name "ctlptl-registry" (buildRegistry Fake.env Fake.fullFlags))))
        (ctl (Fake.world Fake.fullFlags [])) = (got, c1) /\
    Apply Fake.controller
          (Fake.fillDefaults
             (set_Name "ctlptl-registry" (buildRegistry Fake.env Fake.fullFlags))) c1 =
      ((Some (Fake.fillDefaults
                (set_Name "ctlptl-registry" (buildRegistry Fake.env Fake.fullFlags))),
        None), r', c2) /\
    ctl (snd (run Fake.env Fake.controller "ctlptl-registry"
                  (Fake.world Fake.fullFlags []))) = c2 /\
    o_Registry (snd (run Fake.env Fake.controller "ctlptl-registry"
                         (Fake.world Fake.fullFlags []))) = r'.
Proof.
  assert (Happly :
            In (EvApply (Fake.fillDefaults
                           (set_Name "ctlptl-registry" (buildRegistry Fake.env Fake.fullFlags)))
                        (Some (Fake.fillDefaults
                                 (set_Name "ctlptl-registry"
                                           (buildRegistry Fake.env Fake.fullFlags))),
                         None))
               (run_trace Fake.env Fake.controller "ctlptl-registry"
                          (Fake.world Fake.fullFlags [])))
    by (vm_compute; in_list).
  split; [exact Happly|].
  exact (Apply_follows_Get Fake.env Fake.controller "ctlptl-registry"
           (Fake.world Fake.fullFlags []) _ _ Happly).
Defined.

Lemma guard_stops_before_creation_witness :
  In (EvGet "ctlptl-registry" (Some Fake.existing, None))
     (run_trace Fake.env Fake.controller "ctlptl-registry"
                (Fake.world noFlags [Fake.existing])) /\
  filter is_Apply (run_trace Fake.env Fake.controller "ctlptl-registry"
                             (Fake.world noFlags [Fake.existing])) = [] /\
  ctl (snd (run Fake.env Fake.controller "ctlptl-registry"
                (Fake.world noFlags [Fake.existing]))) =
    snd (Get Fake.controller "ctlptl-registry" (ctl (Fake.world noFlags [Fake.existing]))) /\
  o_Registry (snd (run Fake.env Fake.controller "ctlptl-registry"
                       (Fake.world noFlags [Fake.existing]))) =
    FillDefaults Fake.env
                 (set_Name "ctlptl-registry" (o_Registry (Fake.world noFlags [Fake.existing]))) /\
  Out (snd (run Fake.env Fake.controller "ctlptl-registry"
                (Fake.world noFlags [Fake.existing]))) =
    Out (Fake.world noFlags [Fake.existing]).
Proof.
  assert (Hget : In (EvGet "ctlptl-registry" (Some Fake.existing, None))
                    (run_trace Fake.env Fake.controller "ctlptl-registry"
                               (Fake.world noFlags [Fake.existing])))
    by (vm_compute; in_list).
  assert (Hnone : filter is_Apply (run_trace Fake.env Fake.controller "ctlptl-registry"
                                             (Fake.world noFlags [Fake.existing])) = [])
    by reflexivity.
  split; [exact Hget|]. split; [exact Hnone|].
  exact (guard_stops_before_creation Fake.env Fake.controller "ctlptl-registry"
           (Fake.world noFlags [Fake.existing]) _ _ Hget Hnone).
Defined.

Lemma Execute_without_controller_witness :
  DefaultController Fake.noController = inr (foreign "docker not running") /\
  Execute Fake.noController Fake.proxyFlags ["ctlptl-registry"] [] [] =
  Some (Exited 1,
        mkWorld (buildRegistry Fake.noController Fake.proxyFlags) [] [] ""
                (errorLine (foreign "docker not running")) []).
Proof.
  assert (Hctl : DefaultController Fake.noController = inr (foreign "docker not running"))
    by reflexivity.
  split; [exact Hctl|].
  exact (Execute_without_controller Fake.noController Fake.proxyFlags [] []
           "ctlptl-registry" (foreign "docker not running") Hctl).
Defined.

Lemma Execute_success_witness :
  Execute Fake.env noFlags ["ctlptl-registry"] [] [] =
    Some (Returned,
          snd (run Fake.env Fake.controller "ctlptl-registry" (Fake.world noFlags []))) /\
  exists name controller arg obj printer,
    ["ctlptl-registry"] = [name] /\
    DefaultController Fake.env = inl controller /\
    In (EvApply arg (obj, None))
       (calls (snd (run Fake.env Fake.controller "ctlptl-registry" (Fake.world noFlags [])))) /\
    ToPrinter Fake.env = inl printer /\
    PrintObj printer obj =
      (Out (snd (run Fake.env Fake.controller "ctlptl-registry" (Fake.world noFlags []))),
       None) /\
    ErrOut (snd (run Fake.env Fake.controller "ctlptl-registry" (Fake.world noFlags []))) = "" /\
    exists got c1,
      Get controller (Name arg) [] = (got, c1) /\
      Apply controller arg c1 =
        ((obj, None),
         o_Registry (snd (run Fake.env Fake.controller "ctlptl-registry"
                              (Fake.world noFlags []))),
         ctl (snd (run Fake.env Fake.controller "ctlptl-registry" (Fake.world noFlags [])))).
Proof.
  assert (Hrun : Execute Fake.env noFlags ["ctlptl-registry"] [] [] =
                 Some (Returned,
                       snd (run Fake.env Fake.controller "ctlptl-registry"
                                (Fake.world noFlags []))))
    by (vm_compute; reflexivity).
  split; [exact Hrun|].
  exact (Execute_success Fake.env noFlags [] [] ["ctlptl-registry"] _ Hrun).
Defined.

Lemma Execute_failure_witness :
  Execute Fake.env noFlags ["ctlptl-registry"] [Fake.existing] [] =
    Some (Exited 1,
          snd (Run Fake.env ["ctlptl-registry"] (Fake.world noFlags [Fake.existing]))) /\
  1 = 1 /\
  exists err,
    ErrOut (snd (Run Fake.env ["ctlptl-registry"] (Fake.world noFlags [Fake.existing]))) =
      errorLine err /\
    ((DefaultController Fake.env = inr err /\
      calls (snd (Run Fake.env ["ctlptl-registry"] (Fake.world noFlags [Fake.existing]))) = [])
     \/
     (exists controller name,
        ["ctlptl-registry"] = [name] /\ DefaultController Fake.env = inl controller /\
        fst (run Fake.env controller name
                 (mkWorld (buildRegistry Fake.env noFlags) [Fake.existing] [] "" "" [])) =
          Some err)).
Proof.
  assert (Hrun : Execute Fake.env noFlags ["ctlptl-registry"] [Fake.existing] [] =
                 Some (Exited 1,
                       snd (Run Fake.env ["ctlptl-registry"]
                                (Fake.world noFlags [Fake.existing]))))
    by (vm_compute; reflexivity).
  split; [exact Hrun|].
  exact (Execute_failure Fake.env noFlags [Fake.existing] [] ["ctlptl-registry"] 1 _ Hrun).
Defined.

Lemma Execute_already_exists_witness :
  DefaultController Fake.env = inl Fake.controller /\
  newAnalytics Fake.env = inl Fake.analytics /\
  Get Fake.controller
      (Name (FillDefaults Fake.env (set_Name "ctlptl-registry" (buildRegistry Fake.env noFlags))))
      [Fake.existing] = ((Some Fake.existing, None), [Fake.existing]) /\
  exists w',
    Execute Fake.env noFlags ["ctlptl-registry"] [Fake.existing] [] = Some (Exited 1, w') /\
    ErrOut w' = "Cannot create registry: already exists" ++ String "010" "" /\
    Out w' = "" /\
    filter is_Apply (calls w') = [] /\
    ctl w' = [Fake.existing].
Proof.
  assert (Hctl : DefaultController Fake.env = inl Fake.controller) by reflexivity.
  assert (Hnew : newAnalytics Fake.env = inl Fake.analytics) by reflexivity.
  assert (Hget : Get Fake.controller
                     (Name (FillDefaults Fake.env
                              (set_Name "ctlptl-registry" (buildRegistry Fake.env noFlags))))
                     [Fake.existing] = ((Some Fake.existing, None), [Fake.existing]))
    by reflexivity.
  split; [exact Hctl|]. split; [exact Hnew|]. split; [exact Hget|].
  exact (Execute_already_exists Fake.env noFlags [Fake.existing] [] "ctlptl-registry"
           Fake.controller Fake.analytics (Some Fake.existing) [Fake.existing]
           Hctl Hnew Hget).
Defined.
